(** * Mercury runtime: installing and querying signal handlers

    A shallow embedding of [runtime/mercury_signal.c].  The C file is one
    compatibility seam over two operating-system facilities, selected at
    build time by [MR_HAVE_SIGACTION]:

    - the structured facility ([sigaction]), embedded in [Module Structured];
    - the primitive facility ([signal]), embedded in [Module Primitive].

    The process is modelled by explicit state passing: the process-wide
    signal-disposition table, [errno], and what has been written to the
    standard error stream.  [exit] ends the computation with a status. *)

From Stdlib Require Import ZArith Lia.
From stdpp Require Import base option gmap strings list.

Local Open Scope Z_scope.

(** ** Process state and the computation monad *)

(** What [MR_perror] writes: the context string it was given together
    with the [errno] value whose description the platform appends. *)
Record diagnostic := Diagnostic {
  diag_context : string;
  diag_errno : Z
}.

(** [D] is the facility's action descriptor ([MR_signal_action]). *)
Record process (D : Type) := Process {
  sig_table : gmap Z D;
  errno : Z;
  stderr : list diagnostic
}.
Arguments Process {D} _ _ _.
Arguments sig_table {D} _.
Arguments errno {D} _.
Arguments stderr {D} _.

Inductive outcome (D A : Type) :=
| Returned (a : A) (st : process D)
| Exited (status : Z) (st : process D).
Arguments Returned {D A} _ _.
Arguments Exited {D A} _ _.

Definition M (D A : Type) : Type := process D -> outcome D A.

Definition ret {D A} (a : A) : M D A := fun st => Returned a st.

Definition bind {D A B} (c : M D A) (k : A -> M D B) : M D B :=
  fun st =>
    match c st with
    | Returned a st' => k a st'
    | Exited n st' => Exited n st'
    end.

#[global] Instance M_ret D : MRet (M D) := fun A => @ret D A.
#[global] Instance M_bind D : MBind (M D) := fun A B k c => @bind D A B c k.

(** [exit(status)]: the process ends, nothing after it runs. *)
Definition exit {D A} (status : Z) : M D A := fun st => Exited status st.

(** [if (c) { body }] where the body may leave the process. *)
Definition when {D} (c : bool) (body : M D unit) : M D unit :=
  if c then body else ret tt.

Definition set_errno {D} (e : Z) : M D unit :=
  fun st => Returned tt (Process (sig_table st) e (stderr st)).

(** Modelled from the spec: [MR_perror] is declared in the runtime's
    headers and defined elsewhere; it prints a diagnostic built from the
    given context string plus the platform's last-error description
    (the description of the current [errno]). *)
Definition MR_perror {D} (s : string) : M D unit :=
  fun st =>
    Returned tt
      (Process (sig_table st) (errno st) (stderr st ++ [Diagnostic s (errno st)])).

(** ** The platform *)

(** Handler entry points are code addresses. *)
Definition MR_Code : Type := Z.
Definition NULL : MR_Code := 0.
Definition SIG_DFL : MR_Code := 0.
Definition SIG_ERR : MR_Code := -1.
Definition EINVAL : Z := 22.

(** What the build configuration and the operating system fix once and
    for all.  [platform_SA_RESTART] and [platform_SA_SIGINFO] are the
    values <signal.h> gives the two flags, when it defines them. *)
Record platform := Platform {
  platform_SA_RESTART : option Z;
  platform_SA_SIGINFO : option Z;
  MR_HAVE_SIGCONTEXT_STRUCT : bool;
  (** signal numbers the operating system knows *)
  valid_signal : Z -> bool;
  (** signals whose disposition cannot be changed (SIGKILL, SIGSTOP) *)
  kernel_only : Z -> bool;
  (** [None]: [sigemptyset] succeeds; [Some e]: it fails with [errno = e] *)
  sigemptyset_error : option Z
}.

(** mercury_signal.c, lines 48-54: a flag the platform lacks is 0. *)
Definition SA_RESTART (P : platform) : Z := default 0 (platform_SA_RESTART P).
Definition SA_SIGINFO (P : platform) : Z := default 0 (platform_SA_SIGINFO P).

(** ** The structured facility ([MR_HAVE_SIGACTION] defined) *)

Module Structured.

(** [struct sigaction]; [MR_SIGACTION_FIELD] names the handler member. *)
Record sigaction_t := Sigaction {
  sa_handler : MR_Code;
  sa_flags : Z;
  sa_mask : gset Z
}.
Definition MR_signal_action : Type := sigaction_t.

Definition with_sa_handler (act : sigaction_t) (h : MR_Code) : sigaction_t :=
  Sigaction h (sa_flags act) (sa_mask act).
Definition with_sa_flags (act : sigaction_t) (f : Z) : sigaction_t :=
  Sigaction (sa_handler act) f (sa_mask act).
Definition with_sa_mask (act : sigaction_t) (m : gset Z) : sigaction_t :=
  Sigaction (sa_handler act) (sa_flags act) m.

(** The disposition of a signal nobody has registered yet. *)
Definition default_action : sigaction_t := Sigaction SIG_DFL 0 ∅.

Definition disposition (st : process sigaction_t) (sig : Z) : sigaction_t :=
  default default_action (sig_table st !! sig).

Section WithPlatform.
Variable P : platform.

(** POSIX [sigemptyset(&set)]: the argument is the content of [set]
    before the call, the result the return code and its content after. *)
Definition sigemptyset (set : gset Z) : M sigaction_t (Z * gset Z) :=
  fun st =>
    match sigemptyset_error P with
    | None => Returned (0, ∅) st
    | Some e => Returned (-1, set) (Process (sig_table st) e (stderr st))
    end.

(** POSIX [sigaction(sig, act, oact)].  A null pointer is [None]; for
    [oact] the argument is the content of the caller's buffer before the
    call and the second result its content after. *)
Definition sigaction (sig : Z) (act oact : option sigaction_t)
  : M sigaction_t (Z * option sigaction_t) :=
  fun st =>
    let refused :=
      negb (valid_signal P sig)
      || match act with Some _ => kernel_only P sig | None => false end in
    if refused
    then Returned (-1, oact) (Process (sig_table st) EINVAL (stderr st))
    else
      Returned (0, (fun _ => disposition st sig) <$> oact)
        match act with
        | Some a => Process (<[sig := a]> (sig_table st)) (errno st) (stderr st)
        | None => st
        end.

(** mercury_signal.c, line 129.  [act] is [*act]. *)
Definition MR_set_signal_action (sig : Z) (act : MR_signal_action)
    (error_message : string) : M sigaction_t unit :=
  '(rc, _) ← sigaction sig (Some act) None;
  when (negb (rc =? 0)) (MR_perror error_message;; exit 1).

(** mercury_signal.c, line 110.  [act] is the content of [*act] on
    entry, the result its content on return. *)
Definition MR_get_signal_action (sig : Z) (act : MR_signal_action)
    (error_message : string) : M sigaction_t MR_signal_action :=
  '(rc, oact) ← sigaction sig None (Some act);
  when (negb (rc =? 0)) (MR_perror error_message;; exit 1);;
  mret (default act oact).

(** mercury_signal.c, line 73.  The automatic variable
    [MR_signal_action act;] starts with indeterminate content: [act] is
    that content, whatever it is. *)
Definition MR_do_setup_signal (act : MR_signal_action) (sig : Z)
    (handler : MR_Code) (need_info restart : bool)
    (error_message : string) : M sigaction_t unit :=
  let act := with_sa_flags act (if restart then SA_RESTART P else 0) in
  let act :=
    if need_info then
      if MR_HAVE_SIGCONTEXT_STRUCT P then act
      else with_sa_flags act (Z.lor (sa_flags act) (SA_SIGINFO P))
    else act in
  '(rc, mask) ← sigemptyset (sa_mask act);
  let act := with_sa_mask act mask in
  when (negb (rc =? 0))
    (MR_perror "cannot set clear signal mask";; exit 1);;
  set_errno 0;;
  let act := with_sa_handler act handler in
  MR_set_signal_action sig act error_message.

(** mercury_signal.c, line 59. *)
Definition MR_setup_signal (act : MR_signal_action) (sig : Z)
    (handler : MR_Code) (need_info : bool) (error_message : string)
  : M sigaction_t unit :=
  MR_do_setup_signal act sig handler need_info true error_message.

(** mercury_signal.c, line 66. *)
Definition MR_setup_signal_no_restart (act : MR_signal_action) (sig : Z)
    (handler : MR_Code) (need_info : bool) (error_message : string)
  : M sigaction_t unit :=
  MR_do_setup_signal act sig handler need_info false error_message.

End WithPlatform.
End Structured.

(** ** The primitive facility ([MR_HAVE_SIGACTION] not defined) *)

Module Primitive.

(** The descriptor is the bare handler reference. *)
Definition MR_signal_action : Type := MR_Code.

Definition disposition (st : process MR_Code) (sig : Z) : MR_Code :=
  default SIG_DFL (sig_table st !! sig).

Section WithPlatform.
Variable P : platform.

(** ISO C [signal(sig, func)]: installs [func] and returns the handler
    it replaces, or returns [SIG_ERR] with [errno] set and installs
    nothing.  It refuses a signal number it does not know, a signal whose
    disposition cannot be changed, and [SIG_ERR] offered as a handler (the
    value is reserved for the error return). *)
Definition signal (sig : Z) (func : MR_Code) : M MR_Code MR_Code :=
  fun st =>
    if bool_decide (func = SIG_ERR) || negb (valid_signal P sig)
       || kernel_only P sig
    then Returned SIG_ERR (Process (sig_table st) EINVAL (stderr st))
    else
      Returned (disposition st sig)
        (Process (<[sig := func]> (sig_table st)) (errno st) (stderr st)).

(** mercury_signal.c, line 129. *)
Definition MR_set_signal_action (sig : Z) (act : MR_signal_action)
    (error_message : string) : M MR_Code unit :=
  r ← signal sig act;
  when (bool_decide (r = SIG_ERR)) (MR_perror error_message;; exit 1).

(** mercury_signal.c, line 110. *)
Definition MR_get_signal_action (sig : Z) (act : MR_signal_action)
    (error_message : string) : M MR_Code MR_signal_action :=
  act ← signal sig NULL;
  when (bool_decide (act = SIG_ERR)) (MR_perror error_message;; exit 1);;
  mret act.

(** mercury_signal.c, line 73. *)
Definition MR_do_setup_signal (sig : Z) (handler : MR_Code)
    (need_info restart : bool) (error_message : string) : M MR_Code unit :=
  let act := handler in
  MR_set_signal_action sig act error_message.

(** mercury_signal.c, line 59. *)
Definition MR_setup_signal (sig : Z) (handler : MR_Code)
    (need_info : bool) (error_message : string) : M MR_Code unit :=
  MR_do_setup_signal sig handler need_info true error_message.

(** mercury_signal.c, line 66. *)
Definition MR_setup_signal_no_restart (sig : Z) (handler : MR_Code)
    (need_info : bool) (error_message : string) : M MR_Code unit :=
  MR_do_setup_signal sig handler need_info false error_message.

End WithPlatform.
End Primitive.

(** ** Sample platforms and processes *)

Definition sample_valid_signal (sig : Z) : bool := (1 <=? sig) && (sig <=? 64).
Definition sample_kernel_only (sig : Z) : bool := (sig =? 9) || (sig =? 19).

(** Both flags defined, extended context compatible with the handlers. *)
Definition siginfo_platform : platform :=
  Platform (Some 268435456) (Some 4) false
    sample_valid_signal sample_kernel_only None.

(** Both flags defined, handlers written against the legacy context
    structure. *)
Definition sigcontext_platform : platform :=
  Platform (Some 268435456) (Some 4) true
    sample_valid_signal sample_kernel_only None.

(** A platform whose [sigemptyset] fails. *)
Definition broken_mask_platform : platform :=
  Platform (Some 268435456) (Some 4) false
    sample_valid_signal sample_kernel_only (Some EINVAL).

(** A process that has registered nothing yet. *)
Definition fresh {D} : process D := Process ∅ 0 [].

(** Some content for a descriptor variable nobody initialised. *)
Definition junk_action : Structured.sigaction_t :=
  Structured.Sigaction 57005 (-1) {[ 3; 11 ]}.

(** ** Vocabulary of the statements *)

(** Status with which a computation left the process, if it did. *)
Definition exit_status {D A} (o : outcome D A) : option Z :=
  match o with
  | Returned _ _ => None
  | Exited n _ => Some n
  end.

(** The computation ended the process with a non-zero status, and the last
    thing it printed is the diagnostic made of [ctx] and the description of
    the error the platform reported last. *)
Definition fatal_with {D A} (ctx : string) (st : process D)
    (o : outcome D A) : Prop :=
  ∃ n st',
    o = Exited n st' ∧ n ≠ 0 ∧
    stderr st' = stderr st ++ [Diagnostic ctx (errno st')].

(** The state in which the registration reaches the set operation:
    mercury_signal.c, line 98, has reset [errno]. *)
Definition errno_cleared {D} (st : process D) : process D :=
  Process (sig_table st) 0 (stderr st).

(** The flag word of mercury_signal.c, lines 81-93, in closed form. *)
Definition setup_flags (P : platform) (need_info restart : bool) : Z :=
  Z.lor (if restart then SA_RESTART P else 0)
        (if need_info && negb (MR_HAVE_SIGCONTEXT_STRUCT P)
         then SA_SIGINFO P else 0).

(** The operating system lets the disposition of [sig] be changed. *)
Definition installable (P : platform) (sig : Z) : bool :=
  valid_signal P sig && negb (kernel_only P sig).

(** A client that registers several handlers one after the other. *)
Record install_request := InstallRequest {
  req_local : Structured.sigaction_t;
  req_sig : Z;
  req_handler : MR_Code;
  req_need_info : bool;
  req_restart : bool;
  req_message : string
}.

Fixpoint install_all (P : platform) (rs : list install_request)
  : M Structured.sigaction_t unit :=
  match rs with
  | [] => mret tt
  | r :: rs =>
      Structured.MR_do_setup_signal P (req_local r) (req_sig r)
        (req_handler r) (req_need_info r) (req_restart r) (req_message r);;
      install_all P rs
  end.

(** Three registrations in a row: two for signal 15 that differ in what
    they ask for, one for signal 2. *)
Definition sample_requests : list install_request :=
  [InstallRequest junk_action 15 4096 true true "term handler";
   InstallRequest junk_action 15 8192 false false "term handler";
   InstallRequest junk_action 2 4096 true false "int handler"].

(** [built] is the descriptor the registration [c] hands to the set
    operation: whatever the signal, the message and the process, [c] either
    is the set operation applied to [built] (with [errno] reset), or, where
    the mask cannot be cleared, ends the process with status 1 and leaves
    the disposition table as it found it. *)
Definition registers_with (P : platform)
    (c : Z -> string -> M Structured.sigaction_t unit)
    (built : Structured.sigaction_t) : Prop :=
  ∀ sig msg st,
    match sigemptyset_error P with
    | None =>
        c sig msg st =
        Structured.MR_set_signal_action P sig built msg (errno_cleared st)
    | Some _ =>
        ∃ st', c sig msg st = Exited 1 st' ∧ sig_table st' = sig_table st
    end.

(** The result satisfies [Q], when there is one. *)
Definition on_return {D A} (o : outcome D A) (Q : A -> process D -> Prop)
  : Prop :=
  match o with
  | Returned a st => Q a st
  | Exited _ _ => True
  end.


(** The process an operation leaves behind, however it ended. *)
Definition final_state {D A} (o : outcome D A) : process D :=
  match o with
  | Returned _ st => st
  | Exited _ st => st
  end.

(** On the primitive facility: no signal has the error sentinel as its
    handler. *)
Definition sentinel_free (st : process MR_Code) : Prop :=
  ∀ sig, Primitive.disposition st sig ≠ SIG_ERR.

(** ** Bit-level facts about flag words *)

Lemma land_lor_absorb (a b : Z) : Z.land (Z.lor a b) a = a.
Proof.
  apply Z.bits_inj'. intros n _.
  rewrite Z.land_spec, Z.lor_spec.
  destruct (Z.testbit a n), (Z.testbit b n); reflexivity.
Qed.

(** ** What each operation does, in closed form *)

Ltac run_monad :=
  unfold mbind, M_bind, bind, mret, M_ret, ret, when, exit, MR_perror,
    set_errno; simpl.

Section StructuredFacts.
Import Structured.
Variable P : platform.

Lemma structured_set_spec sig act msg st :
  MR_set_signal_action P sig act msg st =
  if installable P sig
  then Returned tt (Process (<[sig := act]> (sig_table st)) (errno st) (stderr st))
  else Exited 1
         (Process (sig_table st) EINVAL (stderr st ++ [Diagnostic msg EINVAL])).
Proof.
  unfold MR_set_signal_action, sigaction, installable. run_monad.
  destruct (valid_signal P sig), (kernel_only P sig); reflexivity.
Qed.

Lemma structured_get_spec sig buf msg st :
  MR_get_signal_action P sig buf msg st =
  if valid_signal P sig
  then Returned (disposition st sig) st
  else Exited 1
         (Process (sig_table st) EINVAL (stderr st ++ [Diagnostic msg EINVAL])).
Proof.
  unfold MR_get_signal_action, sigaction. run_monad.
  destruct (valid_signal P sig); reflexivity.
Qed.

Lemma structured_setup_spec act sig handler need_info restart msg st :
  MR_do_setup_signal P act sig handler need_info restart msg st =
  match sigemptyset_error P with
  | Some e =>
      Exited 1
        (Process (sig_table st) e
           (stderr st ++ [Diagnostic "cannot set clear signal mask" e]))
  | None =>
      MR_set_signal_action P sig
        (Sigaction handler (setup_flags P need_info restart) ∅) msg
        (errno_cleared st)
  end.
Proof.
  unfold MR_do_setup_signal, sigemptyset, setup_flags, errno_cleared.
  run_monad.
  destruct (sigemptyset_error P) as [e|]; simpl; [reflexivity|].
  destruct need_info, (MR_HAVE_SIGCONTEXT_STRUCT P); simpl;
    rewrite ?Z.lor_0_r; reflexivity.
Qed.

Lemma structured_setup_returned act sig handler need_info restart msg st st' :
  MR_do_setup_signal P act sig handler need_info restart msg st
    = Returned tt st' ->
  installable P sig = true ∧ sigemptyset_error P = None ∧
  st' = Process
          (<[sig := Sigaction handler (setup_flags P need_info restart) ∅]>
             (sig_table st))
          0 (stderr st).
Proof.
  rewrite structured_setup_spec.
  destruct (sigemptyset_error P); [discriminate|].
  rewrite structured_set_spec.
  destruct (installable P sig); [|discriminate].
  intros [= <-]. auto.
Qed.

Lemma disposition_insert_eq t e o sig (act : sigaction_t) :
  disposition (Process (<[sig := act]> t) e o) sig = act.
Proof. unfold disposition. simpl. rewrite lookup_insert_eq. reflexivity. Qed.

Lemma disposition_insert_ne t e o e' o' sig s (act : sigaction_t) :
  sig ≠ s ->
  disposition (Process (<[sig := act]> t) e o) s
  = disposition (Process t e' o') s.
Proof.
  intros Hne. unfold disposition. simpl.
  rewrite lookup_insert_ne by assumption. reflexivity.
Qed.

End StructuredFacts.

Section PrimitiveFacts.
Import Primitive.
Variable P : platform.

Lemma primitive_set_spec sig act msg st :
  MR_set_signal_action P sig act msg st =
  if bool_decide (act = SIG_ERR) || negb (installable P sig)
  then Exited 1
         (Process (sig_table st) EINVAL (stderr st ++ [Diagnostic msg EINVAL]))
  else if bool_decide (disposition st sig = SIG_ERR)
  then Exited 1
         (Process (<[sig := act]> (sig_table st)) (errno st)
            (stderr st ++ [Diagnostic msg (errno st)]))
  else Returned tt
         (Process (<[sig := act]> (sig_table st)) (errno st) (stderr st)).
Proof.
  unfold MR_set_signal_action, signal, installable. run_monad.
  repeat case_bool_decide;
    destruct (valid_signal P sig), (kernel_only P sig); simpl;
    repeat case_bool_decide; simpl; first [reflexivity | congruence].
Qed.

Lemma primitive_get_spec sig buf msg st :
  MR_get_signal_action P sig buf msg st =
  if negb (installable P sig)
  then Exited 1
         (Process (sig_table st) EINVAL (stderr st ++ [Diagnostic msg EINVAL]))
  else if bool_decide (disposition st sig = SIG_ERR)
  then Exited 1
         (Process (<[sig := NULL]> (sig_table st)) (errno st)
            (stderr st ++ [Diagnostic msg (errno st)]))
  else Returned (disposition st sig)
         (Process (<[sig := NULL]> (sig_table st)) (errno st) (stderr st)).
Proof.
  unfold MR_get_signal_action, signal, installable. run_monad.
  repeat case_bool_decide;
    destruct (valid_signal P sig), (kernel_only P sig); simpl;
    repeat case_bool_decide; simpl; first [reflexivity | congruence].
Qed.

Lemma primitive_setup_returned sig handler need_info restart msg st st' :
  MR_do_setup_signal P sig handler need_info restart msg st
    = Returned tt st' ->
  handler ≠ SIG_ERR ∧ installable P sig = true ∧
  st' = Process (<[sig := handler]> (sig_table st)) (errno st) (stderr st).
Proof.
  unfold MR_do_setup_signal. rewrite primitive_set_spec.
  case_bool_decide as Hh; simpl; [discriminate|].
  destruct (installable P sig); simpl; [|discriminate].
  case_bool_decide; [discriminate|].
  intros [= <-]. auto.
Qed.

Lemma primitive_disposition_insert_eq t e o sig (h : MR_Code) :
  disposition (Process (<[sig := h]> t) e o) sig = h.
Proof. unfold disposition. simpl. rewrite lookup_insert_eq. reflexivity. Qed.

End PrimitiveFacts.

(** ** The descriptor a registration builds *)

Section BuiltDescriptor.
Import Structured.
Variable P : platform.

(** Every registration hands the set operation the handler, the flag
    word of lines 81-93 and an empty mask, whatever its local variable
    held on entry. *)
Lemma setup_registers_with act handler need_info restart :
  registers_with P
    (fun sig msg =>
       MR_do_setup_signal P act sig handler need_info restart msg)
    (Sigaction handler (setup_flags P need_info restart) ∅).
Proof.
  intros sig msg st. rewrite structured_setup_spec.
  destruct (sigemptyset_error P); [|reflexivity].
  eexists; split; reflexivity.
Qed.

(** When it returns, the descriptor it built is the disposition of the
    signal. *)
Lemma setup_installs_built act sig handler need_info restart msg st :
  on_return (MR_do_setup_signal P act sig handler need_info restart msg st)
    (fun _ st' =>
       disposition st' sig
       = Sigaction handler (setup_flags P need_info restart) ∅).
Proof.
  unfold on_return.
  destruct (MR_do_setup_signal P act sig handler need_info restart msg st)
    as [[] st'|] eqn:E; [|trivial].
  apply structured_setup_returned in E as (_ & _ & ->).
  apply disposition_insert_eq.
Qed.

Lemma setup_flags_sigcontext need_info restart :
  MR_HAVE_SIGCONTEXT_STRUCT P = true ->
  setup_flags P need_info restart = if restart then SA_RESTART P else 0.
Proof.
  intros H. unfold setup_flags. rewrite H, andb_false_r.
  apply Z.lor_0_r.
Qed.

Lemma setup_flags_no_siginfo need_info restart :
  MR_HAVE_SIGCONTEXT_STRUCT P = true ->
  Z.land (SA_RESTART P) (SA_SIGINFO P) = 0 ->
  Z.land (setup_flags P need_info restart) (SA_SIGINFO P) = 0.
Proof.
  intros H Hd. rewrite setup_flags_sigcontext by assumption.
  destruct restart; [assumption | apply Z.land_0_l].
Qed.

Lemma setup_flags_restart need_info restart :
  Z.land (SA_RESTART P) (SA_SIGINFO P) = 0 ->
  Z.land (setup_flags P need_info restart) (SA_RESTART P)
  = if restart then SA_RESTART P else 0.
Proof.
  intros Hd. unfold setup_flags. destruct restart.
  - apply land_lor_absorb.
  - rewrite Z.lor_0_l.
    destruct (need_info && negb (MR_HAVE_SIGCONTEXT_STRUCT P)).
    + rewrite Z.land_comm. assumption.
    + apply Z.land_0_l.
Qed.

(** A run of registrations changes a disposition only into a descriptor
    one of them built. *)
Lemma install_all_invariant (Q : sigaction_t -> Prop) rs :
  (∀ r, r ∈ rs ->
     Q (Sigaction (req_handler r)
          (setup_flags P (req_need_info r) (req_restart r)) ∅)) ->
  ∀ st st' s,
    install_all P rs st = Returned tt st' ->
    Q (disposition st s) -> Q (disposition st' s).
Proof.
  induction rs as [|r rs IH]; intros HQ st st' s.
  - simpl. intros [= <-]. trivial.
  - simpl. unfold mbind, M_bind, bind.
    destruct (MR_do_setup_signal P _ _ _ _ _ _ st) as [[] st1|] eqn:E;
      [|discriminate].
    apply structured_setup_returned in E as (_ & _ & ->).
    intros Hrun Hs. eapply IH; [| exact Hrun |].
    + intros r' Hr'. apply HQ. set_solver.
    + destruct (decide (req_sig r = s)) as [<-|Hne].
      * rewrite disposition_insert_eq. apply HQ. set_solver.
      * rewrite (disposition_insert_ne _ _ _ (errno st) (stderr st))
          by assumption.
        destruct st. exact Hs.
Qed.

Lemma install_all_registered (Q : sigaction_t -> Prop) rs :
  (∀ r, r ∈ rs ->
     Q (Sigaction (req_handler r)
          (setup_flags P (req_need_info r) (req_restart r)) ∅)) ->
  ∀ st st',
    install_all P rs st = Returned tt st' ->
    ∀ r, r ∈ rs -> Q (disposition st' (req_sig r)).
Proof.
  induction rs as [|r rs IH]; intros HQ st st' Hrun r0 Hr0.
  - set_solver.
  - simpl in Hrun. unfold mbind, M_bind, bind in Hrun.
    destruct (MR_do_setup_signal P _ _ _ _ _ _ st) as [[] st1|] eqn:E;
      [|discriminate].
    apply structured_setup_returned in E as (_ & _ & ->).
    apply elem_of_cons in Hr0 as [->|Hin].
    + eapply install_all_invariant; [| exact Hrun |].
      * intros r' Hr'. apply HQ. set_solver.
      * rewrite disposition_insert_eq. apply HQ. set_solver.
    + eapply IH; [| exact Hrun | exact Hin].
      intros r' Hr'. apply HQ. set_solver.
Qed.

End BuiltDescriptor.

(** ** The claims *)

(** C1.  Where handlers are written against the legacy context structure
    ([MR_HAVE_SIGCONTEXT_STRUCT]), a registration that asks for extended
    context builds a descriptor whose flag word is the restart flag or
    nothing, so (the two flags being different bits) its [SA_SIGINFO] bit is
    clear, whatever the other arguments; that descriptor is what the set
    operation receives and what the signal's disposition is on return.
    After any run of registrations, whatever each of them asks for, the
    disposition of every signal they registered has the [SA_SIGINFO] bit
    clear. *)
Theorem sigcontext_struct_excludes_siginfo (P : platform)
    (Hctx : MR_HAVE_SIGCONTEXT_STRUCT P = true)
    (Hbits : Z.land (SA_RESTART P) (SA_SIGINFO P) = 0) :
  (∀ act handler restart,
     ∃ built,
       registers_with P
         (fun sig msg =>
            Structured.MR_do_setup_signal P act sig handler true restart msg)
         built ∧
       (∀ sig msg st,
          on_return
            (Structured.MR_do_setup_signal P act sig handler true restart
               msg st)
            (fun _ st' => Structured.disposition st' sig = built)) ∧
       Structured.sa_flags built = (if restart then SA_RESTART P else 0) ∧
       Z.land (Structured.sa_flags built) (SA_SIGINFO P) = 0) ∧
  (∀ rs st st',
     install_all P rs st = Returned tt st' ->
     ∀ r, r ∈ rs ->
       Z.land (Structured.sa_flags (Structured.disposition st' (req_sig r)))
         (SA_SIGINFO P) = 0).
Proof.
  split.
  - intros act handler restart. eexists. split; [|split; [|split]].
    + apply setup_registers_with.
    + intros sig msg st. apply setup_installs_built.
    + simpl. apply setup_flags_sigcontext. assumption.
    + simpl. apply setup_flags_no_siginfo; assumption.
  - intros rs st st' Hrun r Hr.
    apply (install_all_registered P
             (fun a => Z.land (Structured.sa_flags a) (SA_SIGINFO P) = 0)
             rs) with (st := st); try assumption.
    intros r' _. simpl. apply setup_flags_no_siginfo; assumption.
Qed.

(** C4.  The descriptor a registration builds, which is what the set
    operation receives and what the signal's disposition is on return, has
    the restart bit set when [restart] is true (a bit that exists where the
    platform defines [SA_RESTART]) and clear when [restart] is false; the
    two flags are different bits. *)
Theorem restart_bit_follows_restart_argument (P : platform)
    (Hbits : Z.land (SA_RESTART P) (SA_SIGINFO P) = 0)
    (act : Structured.sigaction_t) (handler : MR_Code)
    (need_info restart : bool) :
  ∃ built,
    registers_with P
      (fun sig msg =>
         Structured.MR_do_setup_signal P act sig handler need_info restart msg)
      built ∧
    (∀ sig msg st,
       on_return
         (Structured.MR_do_setup_signal P act sig handler need_info restart
            msg st)
         (fun _ st' => Structured.disposition st' sig = built)) ∧
    Z.land (Structured.sa_flags built) (SA_RESTART P)
    = (if restart then SA_RESTART P else 0) ∧
    (restart = true -> SA_RESTART P ≠ 0 ->
     Z.land (Structured.sa_flags built) (SA_RESTART P) ≠ 0).
Proof.
  eexists. split; [apply setup_registers_with|].
  split; [intros sig msg st; apply setup_installs_built|].
  simpl. rewrite (setup_flags_restart P need_info restart Hbits).
  split; [reflexivity|]. intros ->. trivial.
Qed.

(** C6.  The descriptor a registration hands to the set operation has an
    empty blocked-signal mask, whatever mask its local variable held on
    entry, and so has the signal's disposition on return; where the mask
    cannot be cleared the process ends with status 1 and the disposition
    table is left as it was. *)
Theorem mask_cleared_before_registration (P : platform)
    (act : Structured.sigaction_t) (handler : MR_Code)
    (need_info restart : bool) :
  ∃ built,
    registers_with P
      (fun sig msg =>
         Structured.MR_do_setup_signal P act sig handler need_info restart msg)
      built ∧
    (∀ sig msg st,
       on_return
         (Structured.MR_do_setup_signal P act sig handler need_info restart
            msg st)
         (fun _ st' => Structured.disposition st' sig = built)) ∧
    Structured.sa_mask built = ∅.
Proof.
  eexists. split; [apply setup_registers_with|].
  split; [intros sig msg st; apply setup_installs_built | reflexivity].
Qed.

(** On the structured facility a query that returns hands back the
    installed descriptor and leaves the whole process as it was. *)
Lemma structured_query_is_pure (P : platform) sig buf msg st d st' :
  Structured.MR_get_signal_action P sig buf msg st = Returned d st' ->
  d = Structured.disposition st sig ∧ st' = st.
Proof.
  rewrite structured_get_spec.
  destruct (valid_signal P sig); [|discriminate].
  intros [= <- <-]. auto.
Qed.

(** On the primitive facility a query that returns hands back the
    installed handler and leaves [NULL], the default action, installed in
    its place. *)
Lemma primitive_query_installs_null (P : platform) sig buf msg st d st' :
  Primitive.MR_get_signal_action P sig buf msg st = Returned d st' ->
  d = Primitive.disposition st sig ∧ Primitive.disposition st' sig = NULL.
Proof.
  rewrite primitive_get_spec.
  destruct (installable P sig); simpl; [|discriminate].
  case_bool_decide; [discriminate|].
  intros [= <- <-]. split; [reflexivity|].
  apply primitive_disposition_insert_eq.
Qed.

(** C2.  The claim fails on the primitive facility.  With handler 4096
    installed for signal 2, the query returns 4096 and leaves the default
    action installed for signal 2: the [signal(sig, NULL)] of
    mercury_signal.c, line 121, is itself a registration. *)
Theorem primitive_query_resets_disposition :
  let st := Process {[ 2 := 4096 ]} 0 [] in
  ∃ st',
    Primitive.MR_get_signal_action siginfo_platform 2 NULL "query" st
      = Returned 4096 st' ∧
    Primitive.disposition st 2 = 4096 ∧
    Primitive.disposition st' 2 = SIG_DFL ∧
    Primitive.disposition st' 2 ≠ Primitive.disposition st 2.
Proof.
  simpl. eexists. split; [reflexivity|].
  repeat split; vm_compute; congruence.
Qed.

(** C3.  After [MR_setup_signal] with [need_info] false has returned, a
    query for the same signal returns, and the descriptor it returns carries
    the handler that was registered; on both facilities. *)
Theorem registered_handler_is_read_back (P : platform) :
  (∀ act s h msg st st',
     Structured.MR_setup_signal P act s h false msg st = Returned tt st' ->
     ∀ buf msg', ∃ d st'',
       Structured.MR_get_signal_action P s buf msg' st' = Returned d st'' ∧
       Structured.sa_handler d = h) ∧
  (∀ s h msg st st',
     Primitive.MR_setup_signal P s h false msg st = Returned tt st' ->
     ∀ buf msg', ∃ d st'',
       Primitive.MR_get_signal_action P s buf msg' st' = Returned d st'' ∧
       d = h).
Proof.
  split.
  - intros act s h msg st st' Hset buf msg'.
    unfold Structured.MR_setup_signal in Hset.
    apply structured_setup_returned in Hset as (Hok & _ & ->).
    rewrite structured_get_spec.
    unfold installable in Hok. apply andb_prop in Hok as [-> _].
    rewrite disposition_insert_eq. do 2 eexists. split; reflexivity.
  - intros s h msg st st' Hset buf msg'.
    unfold Primitive.MR_setup_signal in Hset.
    apply primitive_setup_returned in Hset as (Hh & Hok & ->).
    rewrite primitive_get_spec, Hok, primitive_disposition_insert_eq. simpl.
    rewrite bool_decide_eq_false_2 by assumption.
    do 2 eexists. split; reflexivity.
Qed.

(** C7.  [MR_setup_signal_no_restart] asked for extended context is
    [MR_do_setup_signal] asked for extended context and no restart: the same
    outcome in every process, and the same descriptor handed to the set
    operation, whatever the local variable of either call held on entry;
    on both facilities. *)
Theorem no_restart_is_setup_without_restart (P : platform) :
  (∀ act act' s h e st,
     Structured.MR_setup_signal_no_restart P act s h true e st
     = Structured.MR_do_setup_signal P act' s h true false e st) ∧
  (∀ act act' h, ∃ built,
     registers_with P
       (fun s e => Structured.MR_setup_signal_no_restart P act s h true e)
       built ∧
     registers_with P
       (fun s e => Structured.MR_do_setup_signal P act' s h true false e)
       built) ∧
  (∀ s h e st,
     Primitive.MR_setup_signal_no_restart P s h true e st
     = Primitive.MR_do_setup_signal P s h true false e st).
Proof.
  split; [|split].
  - intros. unfold Structured.MR_setup_signal_no_restart.
    rewrite !structured_setup_spec. reflexivity.
  - intros act act' h. eexists. split.
    + apply (setup_registers_with P act h true false).
    + apply setup_registers_with.
  - reflexivity.
Qed.

(** C8.  A registration that has returned, made again with the same
    signal, handler, flags and message, returns again and leaves every
    disposition, that of the signal included, as the first one left it; on
    both facilities. *)
Theorem setup_is_idempotent (P : platform) :
  (∀ act act' s h need_info restart e st st1,
     Structured.MR_do_setup_signal P act s h need_info restart e st
       = Returned tt st1 ->
     ∃ st2,
       Structured.MR_do_setup_signal P act' s h need_info restart e st1
         = Returned tt st2 ∧
       st2 = st1 ∧
       ∀ s', Structured.disposition st2 s' = Structured.disposition st1 s') ∧
  (∀ s h need_info restart e st st1,
     Primitive.MR_do_setup_signal P s h need_info restart e st
       = Returned tt st1 ->
     ∃ st2,
       Primitive.MR_do_setup_signal P s h need_info restart e st1
         = Returned tt st2 ∧
       st2 = st1 ∧
       ∀ s', Primitive.disposition st2 s' = Primitive.disposition st1 s').
Proof.
  split.
  - intros act act' s h need_info restart e st st1 H1.
    apply structured_setup_returned in H1 as (Hok & Hmask & ->).
    rewrite structured_setup_spec, Hmask, structured_set_spec, Hok.
    unfold errno_cleared. simpl. rewrite insert_insert_eq.
    eexists. split; [reflexivity|]. split; reflexivity.
  - intros s h need_info restart e st st1 H1.
    apply primitive_setup_returned in H1 as (Hh & Hok & ->).
    unfold Primitive.MR_do_setup_signal.
    rewrite primitive_set_spec, Hok, primitive_disposition_insert_eq.
    rewrite !bool_decide_eq_false_2 by assumption. simpl.
    rewrite insert_insert_eq.
    eexists. split; [reflexivity|]. split; reflexivity.
Qed.

(** C9.  On the primitive facility the registration hands the set
    operation the handler reference itself; [need_info] and [restart]
    change neither the outcome nor the disposition installed. *)
Theorem primitive_descriptor_is_handler (P : platform)
    (sig : Z) (handler : MR_Code) (need_info restart : bool)
    (msg : string) (st : process MR_Code) :
  Primitive.MR_do_setup_signal P sig handler need_info restart msg st
  = Primitive.MR_set_signal_action P sig handler msg st ∧
  (∀ need_info' restart',
     Primitive.MR_do_setup_signal P sig handler need_info' restart' msg st
     = Primitive.MR_do_setup_signal P sig handler need_info restart msg st) ∧
  on_return
    (Primitive.MR_do_setup_signal P sig handler need_info restart msg st)
    (fun _ st' => Primitive.disposition st' sig = handler).
Proof.
  split; [reflexivity|]. split; [reflexivity|].
  unfold on_return.
  destruct (Primitive.MR_do_setup_signal P sig handler need_info restart msg
              st) as [[] st'|] eqn:E; [|trivial].
  apply primitive_setup_returned in E as (_ & _ & ->).
  apply primitive_disposition_insert_eq.
Qed.

(** ** Failure paths *)

Lemma fatal_with_intro {D A} ctx (st : process D) t e :
  @fatal_with D A ctx st
    (Exited 1 (Process t e (stderr st ++ [Diagnostic ctx e]))).
Proof. do 2 eexists. split; [reflexivity|]. split; [lia | reflexivity]. Qed.

(** C5, as the claim states it, fails: where the mask cannot be cleared
    the registration ends the process, but the diagnostic it prints is not
    built from the caller's message. *)
Lemma mask_failure_ignores_caller_context :
  let o :=
    Structured.MR_do_setup_signal broken_mask_platform junk_action 15 4096
      true true "term handler" fresh in
  exit_status o = Some 1 ∧ ¬ fatal_with "term handler" fresh o.
Proof.
  simpl. split; [reflexivity|].
  intros (n & st' & Heq & _ & Herr).
  vm_compute in Heq. injection Heq as <- <-.
  vm_compute in Herr. discriminate.
Qed.

(** C5, amended.  Every failure of the set and query operations, and of
    the set step of a registration, prints the caller's message with the
    description of the last error and ends the process with a non-zero
    status; the failure to clear the mask prints the fixed message
    "cannot set clear signal mask" instead of the caller's, with the
    description of the last error, and ends the process with a non-zero
    status.  Whenever the platform refuses the request the process ends, and
    a query never returns the error sentinel. *)
Theorem failures_print_context_and_exit (P : platform) :
  (∀ sig act msg st,
     let o := Structured.MR_set_signal_action P sig act msg st in
     if installable P sig then exit_status o = None
     else fatal_with msg st o) ∧
  (∀ sig buf msg st,
     let o := Structured.MR_get_signal_action P sig buf msg st in
     if valid_signal P sig then exit_status o = None
     else fatal_with msg st o) ∧
  (∀ act sig h need_info restart msg st,
     let o :=
       Structured.MR_do_setup_signal P act sig h need_info restart msg st in
     match sigemptyset_error P with
     | Some _ => fatal_with "cannot set clear signal mask" st o
     | None =>
         if installable P sig then exit_status o = None
         else fatal_with msg st o
     end) ∧
  (∀ sig act msg st,
     let o := Primitive.MR_set_signal_action P sig act msg st in
     if installable P sig && negb (bool_decide (act = SIG_ERR))
     then exit_status o = None ∨ fatal_with msg st o
     else fatal_with msg st o) ∧
  (∀ sig buf msg st,
     let o := Primitive.MR_get_signal_action P sig buf msg st in
     (if installable P sig then exit_status o = None ∨ fatal_with msg st o
      else fatal_with msg st o) ∧
     on_return o (fun d _ => d ≠ SIG_ERR)) ∧
  (∀ sig h need_info restart msg st,
     let o := Primitive.MR_do_setup_signal P sig h need_info restart msg st in
     if installable P sig && negb (bool_decide (h = SIG_ERR))
     then exit_status o = None ∨ fatal_with msg st o
     else fatal_with msg st o).
Proof.
  assert (Hpset : ∀ sig act msg st,
     let o := Primitive.MR_set_signal_action P sig act msg st in
     if installable P sig && negb (bool_decide (act = SIG_ERR))
     then exit_status o = None ∨ fatal_with msg st o
     else fatal_with msg st o).
  { intros sig act msg st. simpl. rewrite primitive_set_spec.
    destruct (installable P sig); simpl;
      repeat case_bool_decide; simpl;
      auto using @fatal_with_intro. }
  repeat split.
  - intros sig act msg st. simpl. rewrite structured_set_spec.
    destruct (installable P sig); [reflexivity | apply fatal_with_intro].
  - intros sig buf msg st. simpl. rewrite structured_get_spec.
    destruct (valid_signal P sig); [reflexivity | apply fatal_with_intro].
  - intros act sig h need_info restart msg st. simpl.
    rewrite structured_setup_spec.
    destruct (sigemptyset_error P); [apply fatal_with_intro|].
    rewrite structured_set_spec.
    destruct (installable P sig);
      [reflexivity | apply (fatal_with_intro msg st)].
  - exact Hpset.
  - rewrite primitive_get_spec.
    destruct (installable P sig); simpl;
      repeat case_bool_decide; simpl;
      auto using @fatal_with_intro.
  - rewrite primitive_get_spec. unfold on_return.
    destruct (installable P sig); simpl; [|trivial].
    case_bool_decide; [trivial | assumption].
  - intros sig h need_info restart msg st. apply Hpset.
Qed.

(** C10.  Each operation, on either facility, returns or ends the
    process with status 1, never with another status; and each fatal path
    is taken by some call: the mask that cannot be cleared, the refused
    query and the refused registration. *)
Theorem fatal_paths_exit_with_status_one (P : platform) :
  (∀ act sig h need_info restart msg st,
     let o :=
       Structured.MR_do_setup_signal P act sig h need_info restart msg st in
     exit_status o = None ∨ exit_status o = Some 1) ∧
  (∀ sig buf msg st,
     let o := Structured.MR_get_signal_action P sig buf msg st in
     exit_status o = None ∨ exit_status o = Some 1) ∧
  (∀ sig act msg st,
     let o := Structured.MR_set_signal_action P sig act msg st in
     exit_status o = None ∨ exit_status o = Some 1) ∧
  (∀ sig h need_info restart msg st,
     let o := Primitive.MR_do_setup_signal P sig h need_info restart msg st in
     exit_status o = None ∨ exit_status o = Some 1) ∧
  (∀ sig buf msg st,
     let o := Primitive.MR_get_signal_action P sig buf msg st in
     exit_status o = None ∨ exit_status o = Some 1) ∧
  (∀ sig act msg st,
     let o := Primitive.MR_set_signal_action P sig act msg st in
     exit_status o = None ∨ exit_status o = Some 1) ∧
  exit_status
    (Structured.MR_do_setup_signal broken_mask_platform junk_action 15 4096
       true true "term handler" fresh) = Some 1 ∧
  exit_status
    (Structured.MR_get_signal_action siginfo_platform 99 junk_action
       "bad signal" fresh) = Some 1 ∧
  exit_status
    (Structured.MR_set_signal_action siginfo_platform 9 junk_action
       "kill handler" fresh) = Some 1 ∧
  exit_status
    (Primitive.MR_get_signal_action siginfo_platform 99 NULL
       "bad signal" fresh) = Some 1 ∧
  exit_status
    (Primitive.MR_set_signal_action siginfo_platform 9 4096
       "kill handler" fresh) = Some 1.
Proof.
  assert (Hpset : ∀ sig act msg st,
     let o := Primitive.MR_set_signal_action P sig act msg st in
     exit_status o = None ∨ exit_status o = Some 1).
  { intros sig act msg st. simpl. rewrite primitive_set_spec.
    destruct (installable P sig); simpl; repeat case_bool_decide; simpl; auto. }
  repeat split; try reflexivity; try exact Hpset.
  - intros act sig h need_info restart msg st. simpl.
    rewrite structured_setup_spec.
    destruct (sigemptyset_error P); simpl; [auto|].
    rewrite structured_set_spec. destruct (installable P sig); simpl; auto.
  - intros sig buf msg st. simpl. rewrite structured_get_spec.
    destruct (valid_signal P sig); simpl; auto.
  - intros sig act msg st. simpl. rewrite structured_set_spec.
    destruct (installable P sig); simpl; auto.
  - intros sig h need_info restart msg st. apply Hpset.
  - intros sig buf msg st. simpl. rewrite primitive_get_spec.
    destruct (installable P sig); simpl; repeat case_bool_decide; simpl; auto.
Qed.

(** ** The statements at sample inputs *)

Lemma sigcontext_struct_excludes_siginfo_witness :
  (∃ built,
     registers_with sigcontext_platform
       (fun sig msg =>
          Structured.MR_do_setup_signal sigcontext_platform junk_action sig
            4096 true true msg)
       built ∧
     Structured.sa_flags built = SA_RESTART sigcontext_platform ∧
     Z.land (Structured.sa_flags built) (SA_SIGINFO sigcontext_platform) = 0) ∧
  ∃ st',
    install_all sigcontext_platform sample_requests fresh = Returned tt st' ∧
    Z.land (Structured.sa_flags (Structured.disposition st' 15))
      (SA_SIGINFO sigcontext_platform) = 0 ∧
    Z.land (Structured.sa_flags (Structured.disposition st' 2))
      (SA_SIGINFO sigcontext_platform) = 0.
Proof.
  destruct (sigcontext_struct_excludes_siginfo sigcontext_platform
              eq_refl eq_refl) as [Hone Hrun].
  split.
  { destruct (Hone junk_action 4096 true) as (b & Hb & _ & Hflags & Hclear).
    exists b. split; [exact Hb|]. split; [exact Hflags | exact Hclear]. }
  eexists. split; [reflexivity|]. split.
  - refine (Hrun sample_requests fresh _ eq_refl
              (InstallRequest junk_action 15 4096 true true "term handler") _).
    apply list_elem_of_here.
  - refine (Hrun sample_requests fresh _ eq_refl
              (InstallRequest junk_action 2 4096 true false "int handler") _).
    do 2 apply list_elem_of_further. apply list_elem_of_here.
Defined.

Lemma registered_handler_is_read_back_witness :
  (∃ st',
     Structured.MR_setup_signal siginfo_platform junk_action 15 4096 false
       "term handler" fresh = Returned tt st' ∧
     ∃ d st'',
       Structured.MR_get_signal_action siginfo_platform 15 junk_action
         "query" st' = Returned d st'' ∧
       Structured.sa_handler d = 4096) ∧
  (∃ st',
     Primitive.MR_setup_signal siginfo_platform 2 8192 false
       "int handler" fresh = Returned tt st' ∧
     ∃ d st'',
       Primitive.MR_get_signal_action siginfo_platform 2 NULL
         "query" st' = Returned d st'' ∧
       d = 8192).
Proof.
  destruct (registered_handler_is_read_back siginfo_platform) as [Hs Hp].
  split; eexists; (split; [vm_compute; reflexivity|]).
  - exact (Hs junk_action 15 4096 "term handler" fresh _ eq_refl
             junk_action "query").
  - exact (Hp 2 8192 "int handler" fresh _ eq_refl NULL "query").
Defined.

Lemma restart_bit_follows_restart_argument_witness :
  (∃ built,
     registers_with siginfo_platform
       (fun sig msg =>
          Structured.MR_do_setup_signal siginfo_platform junk_action sig
            4096 true true msg)
       built ∧
     Z.land (Structured.sa_flags built) (SA_RESTART siginfo_platform)
     = SA_RESTART siginfo_platform ∧
     Z.land (Structured.sa_flags built) (SA_RESTART siginfo_platform) ≠ 0) ∧
  (∃ built,
     registers_with siginfo_platform
       (fun sig msg =>
          Structured.MR_do_setup_signal siginfo_platform junk_action sig
            4096 true false msg)
       built ∧
     Z.land (Structured.sa_flags built) (SA_RESTART siginfo_platform) = 0).
Proof.
  split.
  - destruct (restart_bit_follows_restart_argument siginfo_platform eq_refl
                junk_action 4096 true true) as (b & Hb & _ & Hset & Hnz).
    exists b. split; [exact Hb|]. split; [exact Hset|].
    apply Hnz; [reflexivity | discriminate].
  - destruct (restart_bit_follows_restart_argument siginfo_platform eq_refl
                junk_action 4096 true false) as (b & Hb & _ & Hclear & _).
    exists b. split; [exact Hb | exact Hclear].
Defined.

Lemma setup_is_idempotent_witness :
  (∃ st1,
     Structured.MR_do_setup_signal siginfo_platform junk_action 15 4096
       true true "term handler" fresh = Returned tt st1 ∧
     ∃ st2,
       Structured.MR_do_setup_signal siginfo_platform
         Structured.default_action 15 4096 true true "term handler" st1
         = Returned tt st2 ∧
       st2 = st1 ∧
       ∀ s', Structured.disposition st2 s' = Structured.disposition st1 s') ∧
  (∃ st1,
     Primitive.MR_do_setup_signal siginfo_platform 2 8192 true true
       "int handler" fresh = Returned tt st1 ∧
     ∃ st2,
       Primitive.MR_do_setup_signal siginfo_platform 2 8192 true true
         "int handler" st1 = Returned tt st2 ∧
       st2 = st1 ∧
       ∀ s', Primitive.disposition st2 s' = Primitive.disposition st1 s').
Proof.
  destruct (setup_is_idempotent siginfo_platform) as [Hs Hp].
  split; eexists; (split; [vm_compute; reflexivity|]).
  - exact (Hs junk_action Structured.default_action 15 4096 true true
             "term handler" fresh _ eq_refl).
  - exact (Hp 2 8192 true true "int handler" fresh _ eq_refl).
Defined.

(** ** Further facts about the two accessors *)

Section AccessorFacts.
Variable P : platform.



Lemma primitive_set_returned sig act msg st st' :
  Primitive.MR_set_signal_action P sig act msg st = Returned tt st' ->
  act ≠ SIG_ERR ∧ installable P sig = true ∧
  Primitive.disposition st sig ≠ SIG_ERR ∧
  st' = Process (<[sig := act]> (sig_table st)) (errno st) (stderr st).
Proof.
  rewrite primitive_set_spec.
  case_bool_decide as Hact; simpl; [discriminate|].
  destruct (installable P sig); simpl; [|discriminate].
  case_bool_decide as Hold; [discriminate|].
  intros [= <-]. auto.
Qed.

Lemma primitive_set_returns sig act msg st :
  act ≠ SIG_ERR -> installable P sig = true ->
  Primitive.disposition st sig ≠ SIG_ERR ->
  Primitive.MR_set_signal_action P sig act msg st
  = Returned tt (Process (<[sig := act]> (sig_table st)) (errno st) (stderr st)).
Proof.
  intros Hact Hok Hold. rewrite primitive_set_spec, Hok.
  rewrite !bool_decide_eq_false_2 by assumption. reflexivity.
Qed.

Lemma primitive_get_returned sig buf msg st d st' :
  Primitive.MR_get_signal_action P sig buf msg st = Returned d st' ->
  installable P sig = true ∧ d = Primitive.disposition st sig ∧
  d ≠ SIG_ERR ∧
  st' = Process (<[sig := NULL]> (sig_table st)) (errno st) (stderr st).
Proof.
  rewrite primitive_get_spec.
  destruct (installable P sig); simpl; [|discriminate].
  case_bool_decide as Hold; [discriminate|].
  intros [= <- <-]. auto.
Qed.

Lemma primitive_disposition_insert_ne t e o e' o' sig s (h : MR_Code) :
  sig ≠ s ->
  Primitive.disposition (Process (<[sig := h]> t) e o) s
  = Primitive.disposition (Process t e' o') s.
Proof.
  intros Hne. unfold Primitive.disposition. simpl.
  rewrite lookup_insert_ne by assumption. reflexivity.
Qed.




End AccessorFacts.

(** ** The accessors: queries, round trips, frames *)

(** X1.  On the structured facility a query that returns hands back
    the installed descriptor and leaves the table, [errno] and the error
    stream exactly as they were; it is refused, with status 1, only for a
    signal number the platform does not know. *)
Theorem structured_query_leaves_process_alone (P : platform)
    (sig : Z) (buf : Structured.sigaction_t) (msg : string)
    (st : process Structured.sigaction_t) :
  on_return (Structured.MR_get_signal_action P sig buf msg st)
    (fun d st' => d = Structured.disposition st sig ∧ st' = st) ∧
  exit_status (Structured.MR_get_signal_action P sig buf msg st)
  = (if valid_signal P sig then None else Some 1).
Proof.
  rewrite structured_get_spec.
  destruct (valid_signal P sig); simpl; auto.
Qed.

(** X2.  On the primitive facility a query that returns hands back the
    handler that was installed and leaves [NULL] installed in its place;
    the other signals, [errno] and the error stream are as they were. *)
Theorem primitive_query_replaces_handler_by_null (P : platform)
    (sig : Z) (buf : MR_Code) (msg : string) (st : process MR_Code) :
  on_return (Primitive.MR_get_signal_action P sig buf msg st)
    (fun d st' =>
       d = Primitive.disposition st sig ∧
       Primitive.disposition st' sig = NULL ∧
       (∀ s, s ≠ sig ->
          Primitive.disposition st' s = Primitive.disposition st s) ∧
       errno st' = errno st ∧ stderr st' = stderr st).
Proof.
  unfold on_return.
  destruct (Primitive.MR_get_signal_action P sig buf msg st)
    as [d st'|] eqn:E; [|trivial].
  apply primitive_get_returned in E as (_ & -> & _ & ->).
  split; [reflexivity|].
  split; [apply primitive_disposition_insert_eq|].
  split; [|split; reflexivity].
  intros s Hne.
  rewrite (primitive_disposition_insert_ne _ _ _ (errno st) (stderr st))
    by congruence.
  destruct st; reflexivity.
Qed.



(** X5.  On the structured facility an operation that ends the process
    has installed nothing: whichever of the registration, the set operation
    and the query it is, either it returns or the disposition table is the
    one it started from. *)
Theorem structured_failure_installs_nothing (P : platform) :
  (∀ act sig h need_info restart msg st,
     let o :=
       Structured.MR_do_setup_signal P act sig h need_info restart msg st in
     exit_status o = None ∨ sig_table (final_state o) = sig_table st) ∧
  (∀ sig act msg st,
     let o := Structured.MR_set_signal_action P sig act msg st in
     exit_status o = None ∨ sig_table (final_state o) = sig_table st) ∧
  (∀ sig buf msg st,
     let o := Structured.MR_get_signal_action P sig buf msg st in
     exit_status o = None ∨ sig_table (final_state o) = sig_table st).
Proof.
  repeat split.
  - intros act sig h need_info restart msg st. simpl.
    rewrite structured_setup_spec.
    destruct (sigemptyset_error P); simpl; [auto|].
    rewrite structured_set_spec. destruct (installable P sig); simpl; auto.
  - intros sig act msg st. simpl. rewrite structured_set_spec.
    destruct (installable P sig); simpl; auto.
  - intros sig buf msg st. simpl. rewrite structured_get_spec.
    destruct (valid_signal P sig); simpl; auto.
Qed.


(** X7.  On the primitive facility, in a process where no signal has
    the error sentinel as its handler, the set operation returns exactly
    when the platform lets the signal's disposition be changed and the
    handler offered is not the sentinel, and the query exactly when the
    platform lets the disposition be changed; otherwise they end the process
    with status 1 and the disposition table is the one they started from. *)
Theorem primitive_failure_installs_nothing (P : platform)
    (st : process MR_Code) (Hfree : sentinel_free st) :
  (∀ sig act msg,
     let o := Primitive.MR_set_signal_action P sig act msg st in
     exit_status o
     = (if installable P sig && negb (bool_decide (act = SIG_ERR))
        then None else Some 1) ∧
     (exit_status o = None ∨ sig_table (final_state o) = sig_table st)) ∧
  (∀ sig buf msg,
     let o := Primitive.MR_get_signal_action P sig buf msg st in
     exit_status o = (if installable P sig then None else Some 1) ∧
     (exit_status o = None ∨ sig_table (final_state o) = sig_table st)).
Proof.
  split.
  - intros sig act msg. simpl. rewrite primitive_set_spec.
    case_bool_decide as Hact; simpl.
    + rewrite andb_false_r. auto.
    + rewrite andb_true_r. destruct (installable P sig); simpl; [|auto].
      rewrite bool_decide_eq_false_2 by apply Hfree. simpl. auto.
  - intros sig buf msg. simpl. rewrite primitive_get_spec.
    destruct (installable P sig); simpl; [|auto].
    rewrite bool_decide_eq_false_2 by apply Hfree. simpl. auto.
Qed.

(** ** Registrations: flags, frames, composition *)

Lemma setup_flags_siginfo (P : platform) need_info restart :
  MR_HAVE_SIGCONTEXT_STRUCT P = false ->
  Z.land (SA_RESTART P) (SA_SIGINFO P) = 0 ->
  Z.land (setup_flags P need_info restart) (SA_SIGINFO P)
  = if need_info then SA_SIGINFO P else 0.
Proof.
  intros Hctx Hbits. unfold setup_flags. rewrite Hctx, andb_true_r.
  rewrite Z.land_lor_distr_l.
  replace (Z.land (if restart then SA_RESTART P else 0) (SA_SIGINFO P))
    with 0 by (destruct restart; [symmetry; exact Hbits | reflexivity]).
  rewrite Z.lor_0_l. destruct need_info; [apply Z.land_diag | reflexivity].
Qed.

Lemma on_return_impl {D A} (o : outcome D A) (Q R : A -> process D -> Prop) :
  (∀ a st, Q a st -> R a st) -> on_return o Q -> on_return o R.
Proof. destruct o; simpl; auto. Qed.

(** X8.  Where handlers are not written against the legacy context
    structure, the disposition a registration leaves on return has the
    [SA_SIGINFO] bit set exactly when extended context was asked for,
    whatever [restart] is; the two flags are different bits. *)
Theorem siginfo_bit_follows_need_info (P : platform)
    (Hctx : MR_HAVE_SIGCONTEXT_STRUCT P = false)
    (Hbits : Z.land (SA_RESTART P) (SA_SIGINFO P) = 0)
    (act : Structured.sigaction_t) (sig : Z) (handler : MR_Code)
    (need_info restart : bool) (msg : string)
    (st : process Structured.sigaction_t) :
  on_return
    (Structured.MR_do_setup_signal P act sig handler need_info restart msg st)
    (fun _ st' =>
       Z.land (Structured.sa_flags (Structured.disposition st' sig))
         (SA_SIGINFO P)
       = if need_info then SA_SIGINFO P else 0).
Proof.
  eapply on_return_impl; [|apply setup_installs_built].
  intros _ st' ->. simpl. apply setup_flags_siginfo; assumption.
Qed.


(** X10.  Nothing of what the caller's variables held on entry shows in
    the result: a registration does the same whatever its local descriptor
    started as, and a query whatever the buffer it fills started as. *)
Theorem outcome_ignores_initial_contents (P : platform) :
  (∀ act act' sig h need_info restart msg st,
     Structured.MR_do_setup_signal P act sig h need_info restart msg st
     = Structured.MR_do_setup_signal P act' sig h need_info restart msg st) ∧
  (∀ buf buf' sig msg st,
     Structured.MR_get_signal_action P sig buf msg st
     = Structured.MR_get_signal_action P sig buf' msg st) ∧
  (∀ buf buf' sig msg st,
     Primitive.MR_get_signal_action P sig buf msg st
     = Primitive.MR_get_signal_action P sig buf' msg st).
Proof.
  split; [|split].
  - intros. rewrite !structured_setup_spec. reflexivity.
  - intros. rewrite !structured_get_spec. reflexivity.
  - intros. rewrite !primitive_get_spec. reflexivity.
Qed.

(** X11.  A registration that returns has printed nothing and touched
    no other signal; on the structured facility it leaves [errno] at 0
    whatever it was before, on the primitive facility it leaves [errno]
    as it was. *)
Theorem registration_frame (P : platform) :
  (∀ act sig h need_info restart msg st,
     on_return
       (Structured.MR_do_setup_signal P act sig h need_info restart msg st)
       (fun _ st' =>
          errno st' = 0 ∧ stderr st' = stderr st ∧
          ∀ s, s ≠ sig ->
            Structured.disposition st' s = Structured.disposition st s)) ∧
  (∀ sig h need_info restart msg st,
     on_return
       (Primitive.MR_do_setup_signal P sig h need_info restart msg st)
       (fun _ st' =>
          errno st' = errno st ∧ stderr st' = stderr st ∧
          ∀ s, s ≠ sig ->
            Primitive.disposition st' s = Primitive.disposition st s)).
Proof.
  split.
  - intros act sig h need_info restart msg st. unfold on_return.
    destruct (Structured.MR_do_setup_signal P act sig h need_info restart
                msg st) as [[] st'|] eqn:E; [|trivial].
    apply structured_setup_returned in E as (_ & _ & ->).
    split; [reflexivity|]. split; [reflexivity|].
    intros s Hne.
    rewrite (disposition_insert_ne _ _ _ (errno st) (stderr st))
      by congruence.
    destruct st; reflexivity.
  - intros sig h need_info restart msg st. unfold on_return.
    destruct (Primitive.MR_do_setup_signal P sig h need_info restart msg st)
      as [[] st'|] eqn:E; [|trivial].
    apply primitive_setup_returned in E as (_ & _ & ->).
    split; [reflexivity|]. split; [reflexivity|].
    intros s Hne.
    rewrite (primitive_disposition_insert_ne _ _ _ (errno st) (stderr st))
      by congruence.
    destruct st; reflexivity.
Qed.

(** X12.  A registration replaces the one before it for the same signal
    completely: when two registrations for one signal return one after the
    other, the process is left exactly as the second alone would have left
    it. *)
Theorem later_registration_wins (P : platform) :
  (∀ act1 act2 sig h1 h2 need1 need2 restart1 restart2 msg1 msg2 st st1 st2,
     Structured.MR_do_setup_signal P act1 sig h1 need1 restart1 msg1 st
       = Returned tt st1 ->
     Structured.MR_do_setup_signal P act2 sig h2 need2 restart2 msg2 st1
       = Returned tt st2 ->
     Structured.MR_do_setup_signal P act2 sig h2 need2 restart2 msg2 st
       = Returned tt st2) ∧
  (∀ sig h1 h2 need1 need2 restart1 restart2 msg1 msg2 st st1 st2,
     Primitive.MR_do_setup_signal P sig h1 need1 restart1 msg1 st
       = Returned tt st1 ->
     Primitive.MR_do_setup_signal P sig h2 need2 restart2 msg2 st1
       = Returned tt st2 ->
     Primitive.MR_do_setup_signal P sig h2 need2 restart2 msg2 st
       = Returned tt st2).
Proof.
  split.
  - intros act1 act2 sig h1 h2 need1 need2 restart1 restart2 msg1 msg2
      st st1 st2 H1 H2.
    apply structured_setup_returned in H1 as (Hok & Hmask & ->).
    apply structured_setup_returned in H2 as (_ & _ & ->). simpl.
    rewrite structured_setup_spec, Hmask, structured_set_spec, Hok.
    unfold errno_cleared. simpl. rewrite insert_insert_eq. reflexivity.
  - intros sig h1 h2 need1 need2 restart1 restart2 msg1 msg2 st st1 st2
      H1 H2.
    unfold Primitive.MR_do_setup_signal in *.
    apply primitive_set_returned in H1 as (_ & Hok & Hold & ->).
    apply primitive_set_returned in H2 as (Hh2 & _ & _ & ->). simpl.
    rewrite primitive_set_returns by assumption.
    rewrite insert_insert_eq. reflexivity.
Qed.

(** X13.  Registrations for different signals do not interfere: when
    two of them return one after the other, they also return in the other
    order, and the process ends up the same. *)
Theorem registrations_for_different_signals_commute (P : platform) :
  (∀ act1 act2 sig1 sig2 h1 h2 need1 need2 restart1 restart2 msg1 msg2
     st st1 st2,
     sig1 ≠ sig2 ->
     Structured.MR_do_setup_signal P act1 sig1 h1 need1 restart1 msg1 st
       = Returned tt st1 ->
     Structured.MR_do_setup_signal P act2 sig2 h2 need2 restart2 msg2 st1
       = Returned tt st2 ->
     ∃ st1',
       Structured.MR_do_setup_signal P act2 sig2 h2 need2 restart2 msg2 st
         = Returned tt st1' ∧
       Structured.MR_do_setup_signal P act1 sig1 h1 need1 restart1 msg1 st1'
         = Returned tt st2) ∧
  (∀ sig1 sig2 h1 h2 need1 need2 restart1 restart2 msg1 msg2 st st1 st2,
     sig1 ≠ sig2 ->
     Primitive.MR_do_setup_signal P sig1 h1 need1 restart1 msg1 st
       = Returned tt st1 ->
     Primitive.MR_do_setup_signal P sig2 h2 need2 restart2 msg2 st1
       = Returned tt st2 ->
     ∃ st1',
       Primitive.MR_do_setup_signal P sig2 h2 need2 restart2 msg2 st
         = Returned tt st1' ∧
       Primitive.MR_do_setup_signal P sig1 h1 need1 restart1 msg1 st1'
         = Returned tt st2).
Proof.
  split.
  - intros act1 act2 sig1 sig2 h1 h2 need1 need2 restart1 restart2 msg1 msg2
      st st1 st2 Hne H1 H2.
    apply structured_setup_returned in H1 as (Hok1 & Hmask & ->).
    apply structured_setup_returned in H2 as (Hok2 & _ & ->). simpl.
    eexists. split.
    + rewrite structured_setup_spec, Hmask, structured_set_spec, Hok2.
      reflexivity.
    + rewrite structured_setup_spec, Hmask, structured_set_spec, Hok1.
      unfold errno_cleared. simpl.
      rewrite (insert_insert_ne (sig_table st) sig1 sig2) by assumption.
      reflexivity.
  - intros sig1 sig2 h1 h2 need1 need2 restart1 restart2 msg1 msg2
      st st1 st2 Hne H1 H2.
    unfold Primitive.MR_do_setup_signal in *.
    apply primitive_set_returned in H1 as (Hh1 & Hok1 & Hold1 & ->).
    apply primitive_set_returned in H2 as (Hh2 & Hok2 & Hold2 & ->).
    rewrite (primitive_disposition_insert_ne _ _ _ (errno st) (stderr st))
      in Hold2 by assumption.
    simpl. eexists. split.
    + apply primitive_set_returns; assumption.
    + rewrite primitive_set_returns; try assumption.
      * simpl.
        rewrite (insert_insert_ne (sig_table st) sig1 sig2) by assumption.
        reflexivity.
      * rewrite (primitive_disposition_insert_ne _ _ _ (errno st) (stderr st))
          by congruence.
        destruct st; exact Hold1.
Qed.

(** X14.  Save, replace, restore: a query, then a registration for the
    same signal, then the set operation given what the query returned,
    returns and leaves every signal with the disposition it had before the
    query; on both facilities. *)
Theorem save_replace_restore (P : platform) :
  (∀ sig buf act h need_info restart msg0 msg1 msg2 st old st0 st1,
     Structured.MR_get_signal_action P sig buf msg0 st = Returned old st0 ->
     Structured.MR_do_setup_signal P act sig h need_info restart msg1 st0
       = Returned tt st1 ->
     ∃ st2,
       Structured.MR_set_signal_action P sig old msg2 st1 = Returned tt st2 ∧
       ∀ s, Structured.disposition st2 s = Structured.disposition st s) ∧
  (∀ sig buf h need_info restart msg0 msg1 msg2 st old st0 st1,
     Primitive.MR_get_signal_action P sig buf msg0 st = Returned old st0 ->
     Primitive.MR_do_setup_signal P sig h need_info restart msg1 st0
       = Returned tt st1 ->
     ∃ st2,
       Primitive.MR_set_signal_action P sig old msg2 st1 = Returned tt st2 ∧
       ∀ s, Primitive.disposition st2 s = Primitive.disposition st s).
Proof.
  split.
  - intros sig buf act h need_info restart msg0 msg1 msg2 st old st0 st1
      Hget Hsetup.
    apply structured_query_is_pure in Hget as (-> & ->).
    apply structured_setup_returned in Hsetup as (Hok & _ & ->).
    rewrite structured_set_spec, Hok. eexists. split; [reflexivity|].
    intros s. simpl. rewrite insert_insert_eq.
    destruct (decide (sig = s)) as [<-|Hne].
    + apply disposition_insert_eq.
    + rewrite (disposition_insert_ne _ _ _ (errno st) (stderr st))
        by assumption.
      destruct st; reflexivity.
  - intros sig buf h need_info restart msg0 msg1 msg2 st old st0 st1
      Hget Hsetup.
    apply primitive_get_returned in Hget as (Hok & -> & Hold & ->).
    apply primitive_setup_returned in Hsetup as (Hh & _ & ->).
    rewrite primitive_set_returns; try assumption.
    + eexists. split; [reflexivity|].
      intros s. simpl. rewrite !insert_insert_eq.
      destruct (decide (sig = s)) as [<-|Hne].
      * apply primitive_disposition_insert_eq.
      * rewrite (primitive_disposition_insert_ne _ _ _ (errno st) (stderr st))
          by assumption.
        destruct st; reflexivity.
    + rewrite primitive_disposition_insert_eq. exact Hh.
Qed.

(** X15.  [MR_setup_signal] and [MR_setup_signal_no_restart], called
    with the same arguments in the same process, end the same way; when
    they return, the dispositions they leave for the signal have the same
    handler and mask, and the flag word of the first is that of the second
    with [SA_RESTART] added; every other signal is left the same by both.
    On the primitive facility the two do the same thing. *)
Theorem setup_and_no_restart_differ_by_restart_flag (P : platform) :
  (∀ act sig h need_info msg st,
     let o1 := Structured.MR_setup_signal P act sig h need_info msg st in
     let o2 :=
       Structured.MR_setup_signal_no_restart P act sig h need_info msg st in
     exit_status o1 = exit_status o2 ∧
     on_return o1 (fun _ st1 =>
       on_return o2 (fun _ st2 =>
         let d1 := Structured.disposition st1 sig in
         let d2 := Structured.disposition st2 sig in
         Structured.sa_handler d1 = Structured.sa_handler d2 ∧
         Structured.sa_mask d1 = Structured.sa_mask d2 ∧
         Structured.sa_flags d1
         = Z.lor (SA_RESTART P) (Structured.sa_flags d2) ∧
         ∀ s, s ≠ sig ->
           Structured.disposition st1 s = Structured.disposition st2 s))) ∧
  (∀ sig h need_info msg st,
     Primitive.MR_setup_signal P sig h need_info msg st
     = Primitive.MR_setup_signal_no_restart P sig h need_info msg st).
Proof.
  split; [|reflexivity].
  intros act sig h need_info msg st. simpl.
  unfold Structured.MR_setup_signal, Structured.MR_setup_signal_no_restart.
  rewrite !structured_setup_spec.
  destruct (sigemptyset_error P); simpl; [auto|].
  rewrite !structured_set_spec.
  destruct (installable P sig); simpl; [|auto].
  split; [reflexivity|].
  rewrite !disposition_insert_eq. simpl.
  split; [reflexivity|]. split; [reflexivity|]. split.
  - unfold setup_flags. rewrite Z.lor_0_l. reflexivity.
  - intros s Hne.
    rewrite !(disposition_insert_ne _ _ _ (errno st) (stderr st))
      by congruence.
    reflexivity.
Qed.

(** X16.  On the structured facility a registration returns exactly
    when the mask can be cleared and the platform lets the signal's
    disposition be changed; for an unknown signal number, or one whose
    disposition is fixed, it ends the process with status 1. *)
Theorem structured_registration_succeeds_iff (P : platform)
    (act : Structured.sigaction_t) (sig : Z) (h : MR_Code)
    (need_info restart : bool) (msg : string)
    (st : process Structured.sigaction_t) :
  exit_status
    (Structured.MR_do_setup_signal P act sig h need_info restart msg st)
  = (if bool_decide (sigemptyset_error P = None) && valid_signal P sig
        && negb (kernel_only P sig)
     then None else Some 1).
Proof.
  rewrite structured_setup_spec.
  destruct (sigemptyset_error P); simpl; [reflexivity|].
  rewrite structured_set_spec. unfold installable.
  destruct (valid_signal P sig), (kernel_only P sig); reflexivity.
Qed.

(** ** The further statements at sample inputs *)

Lemma fresh_sentinel_free : sentinel_free fresh.
Proof. intros sig. discriminate. Qed.




Lemma primitive_failure_installs_nothing_witness :
  exit_status
    (Primitive.MR_set_signal_action siginfo_platform 9 8192
       "kill handler" fresh) = Some 1 ∧
  exit_status
    (Primitive.MR_set_signal_action siginfo_platform 2 SIG_ERR
       "int handler" fresh) = Some 1 ∧
  exit_status
    (Primitive.MR_set_signal_action siginfo_platform 2 8192
       "int handler" fresh) = None ∧
  exit_status
    (Primitive.MR_get_signal_action siginfo_platform 99 NULL
       "query" fresh) = Some 1.
Proof.
  destruct (primitive_failure_installs_nothing siginfo_platform fresh
              fresh_sentinel_free) as (Hset & Hget).
  split; [exact (proj1 (Hset 9 8192 "kill handler"))|].
  split; [exact (proj1 (Hset 2 SIG_ERR "int handler"))|].
  split; [exact (proj1 (Hset 2 8192 "int handler"))|].
  exact (proj1 (Hget 99 NULL "query")).
Defined.

Lemma siginfo_bit_follows_need_info_witness :
  on_return
    (Structured.MR_do_setup_signal siginfo_platform junk_action 15 4096
       true false "term handler" fresh)
    (fun _ st' =>
       Z.land (Structured.sa_flags (Structured.disposition st' 15)) 4 = 4) ∧
  on_return
    (Structured.MR_do_setup_signal siginfo_platform junk_action 15 4096
       false true "term handler" fresh)
    (fun _ st' =>
       Z.land (Structured.sa_flags (Structured.disposition st' 15)) 4 = 0).
Proof.
  split.
  - exact (siginfo_bit_follows_need_info siginfo_platform eq_refl eq_refl
             junk_action 15 4096 true false "term handler" fresh).
  - exact (siginfo_bit_follows_need_info siginfo_platform eq_refl eq_refl
             junk_action 15 4096 false true "term handler" fresh).
Defined.


Lemma later_registration_wins_witness :
  (∃ st1 st2,
     Structured.MR_do_setup_signal siginfo_platform junk_action 15 4096
       true true "first" fresh = Returned tt st1 ∧
     Structured.MR_do_setup_signal siginfo_platform junk_action 15 8192
       false false "second" st1 = Returned tt st2 ∧
     Structured.MR_do_setup_signal siginfo_platform junk_action 15 8192
       false false "second" fresh = Returned tt st2) ∧
  (∃ st1 st2,
     Primitive.MR_do_setup_signal siginfo_platform 2 4096 true true
       "first" fresh = Returned tt st1 ∧
     Primitive.MR_do_setup_signal siginfo_platform 2 8192 false false
       "second" st1 = Returned tt st2 ∧
     Primitive.MR_do_setup_signal siginfo_platform 2 8192 false false
       "second" fresh = Returned tt st2).
Proof.
  destruct (later_registration_wins siginfo_platform) as [Hs Hp].
  split; do 2 eexists;
    (split; [vm_compute; reflexivity|]);
    (split; [vm_compute; reflexivity|]).
  - exact (Hs junk_action junk_action 15 4096 8192 true false true false
             "first" "second" fresh _ _ eq_refl eq_refl).
  - exact (Hp 2 4096 8192 true false true false "first" "second" fresh _ _
             eq_refl eq_refl).
Defined.

Lemma registrations_for_different_signals_commute_witness :
  (∃ st1 st2 st1',
     Structured.MR_do_setup_signal siginfo_platform junk_action 15 4096
       true true "term handler" fresh = Returned tt st1 ∧
     Structured.MR_do_setup_signal siginfo_platform junk_action 2 8192
       false false "int handler" st1 = Returned tt st2 ∧
     Structured.MR_do_setup_signal siginfo_platform junk_action 2 8192
       false false "int handler" fresh = Returned tt st1' ∧
     Structured.MR_do_setup_signal siginfo_platform junk_action 15 4096
       true true "term handler" st1' = Returned tt st2) ∧
  (∃ st1 st2 st1',
     Primitive.MR_do_setup_signal siginfo_platform 15 4096 true true
       "term handler" fresh = Returned tt st1 ∧
     Primitive.MR_do_setup_signal siginfo_platform 2 8192 false false
       "int handler" st1 = Returned tt st2 ∧
     Primitive.MR_do_setup_signal siginfo_platform 2 8192 false false
       "int handler" fresh = Returned tt st1' ∧
     Primitive.MR_do_setup_signal siginfo_platform 15 4096 true true
       "term handler" st1' = Returned tt st2).
Proof.
  destruct (registrations_for_different_signals_commute siginfo_platform)
    as [Hs Hp].
  split.
  - edestruct (Hs junk_action junk_action 15 2 4096 8192 true false true false
                 "term handler" "int handler" fresh) as (st1' & H1 & H2);
      [discriminate | vm_compute; reflexivity | vm_compute; reflexivity |].
    do 2 eexists. exists st1'.
    split; [vm_compute; reflexivity|]. split; [vm_compute; reflexivity|].
    split; [exact H1 | exact H2].
  - edestruct (Hp 15 2 4096 8192 true false true false
                 "term handler" "int handler" fresh) as (st1' & H1 & H2);
      [discriminate | vm_compute; reflexivity | vm_compute; reflexivity |].
    do 2 eexists. exists st1'.
    split; [vm_compute; reflexivity|]. split; [vm_compute; reflexivity|].
    split; [exact H1 | exact H2].
Defined.

Lemma save_replace_restore_witness :
  (∃ old st0 st1 st2,
     Structured.MR_get_signal_action siginfo_platform 15 junk_action
       "save" (Process {[ 15 := junk_action ]} 0 []) = Returned old st0 ∧
     Structured.MR_do_setup_signal siginfo_platform junk_action 15 4096
       true true "replace" st0 = Returned tt st1 ∧
     Structured.MR_set_signal_action siginfo_platform 15 old "restore" st1
       = Returned tt st2 ∧
     Structured.disposition st2 15 = junk_action) ∧
  (∃ old st0 st1 st2,
     Primitive.MR_get_signal_action siginfo_platform 2 NULL
       "save" (Process {[ 2 := 8192 ]} 0 []) = Returned old st0 ∧
     Primitive.MR_do_setup_signal siginfo_platform 2 4096 true true
       "replace" st0 = Returned tt st1 ∧
     Primitive.MR_set_signal_action siginfo_platform 2 old "restore" st1
       = Returned tt st2 ∧
     Primitive.disposition st2 2 = 8192).
Proof.
  destruct (save_replace_restore siginfo_platform) as [Hs Hp].
  split.
  - edestruct (Hs 15 junk_action junk_action 4096 true true
                 "save" "replace" "restore"
                 (Process {[ 15 := junk_action ]} 0 []))
      as (st2 & Hset & Hsame);
      [vm_compute; reflexivity | vm_compute; reflexivity |].
    do 3 eexists. exists st2.
    split; [vm_compute; reflexivity|]. split; [vm_compute; reflexivity|].
    split; [exact Hset | exact (Hsame 15)].
  - edestruct (Hp 2 NULL 4096 true true "save" "replace" "restore"
                 (Process {[ 2 := 8192 ]} 0 []))
      as (st2 & Hset & Hsame);
      [vm_compute; reflexivity | vm_compute; reflexivity |].
    do 3 eexists. exists st2.
    split; [vm_compute; reflexivity|]. split; [vm_compute; reflexivity|].
    split; [exact Hset | exact (Hsame 2)].
Defined.
